(** * The editing-mode extension of the collaboration plugin

    A shallow embedding of [EditingModeExtension.createNew]
    (packages/collaboration-extension/src/collaboration.ts): the three
    toolbar menus, the command registries behind them, the captured
    variable [myForkId], and the callbacks that react to menu
    selections, to shared-state changes and to the resolution of the
    provider's fork promise and of the discovery dialog.

    The callbacks all mutate the same captured objects, so they are
    written in a small state-and-exception monad over one [Session]
    record; every call that leaves the extension (provider, merge
    request, dialogs) is appended to the session's call log. *)

From Stdlib Require Import String Ascii List Lia.
From stdpp Require Import base gmap strings list.

Open Scope string_scope.
Open Scope list_scope.

(** ** JavaScript string primitives used by the source *)

(** [name.startsWith(prefix)] *)
Fixpoint startsWith (name pfx : string) {struct pfx} : bool :=
  match pfx with
  | EmptyString => true
  | String c pfx' =>
      match name with
      | EmptyString => false
      | String d name' => Ascii.eqb c d && startsWith name' pfx'
      end
  end.

(** [name.slice(start)] for a non-negative [start] *)
Fixpoint slice (start : nat) (name : string) : string :=
  match start, name with
  | O, _ => name
  | S _, EmptyString => EmptyString
  | S n, String _ name' => slice n name'
  end.

(** ** Data model *)

(** A Lumino [Menu]: the label of its title and the command ids of its
    items, in display order. *)
Record Menu := mkMenu {
  title_label : string;
  items : list string
}.

(** The part of [context.model.sharedModel] the extension reads. *)
Record SharedModel := mkSharedModel {
  rootRoomId : string;
  currentRoomId : string
}.

(** The two kinds of closure registered in [suggestionCommands]: the
    ['root'] command, and the command created for an announced fork, which
    captures [newForkId]. *)
Inductive Command :=
| CmdRoot
| CmdSuggestion (newForkId : string).

(** Calls that leave the extension. *)
Inductive Call :=
| Fork                                   (* provider.fork() *)
| ConnectFork (roomId : string)          (* provider.connectFork(roomId) *)
| RequestDocMerge (current root : string)(* requestDocMerge(current, root) *)
| DialogSuggestion                       (* 'Your are now viewing the suggestion.' *)
| DialogNewSuggestion (forkId : string). (* 'Open notebook for suggestion?' *)

(** Everything [createNew] allocates and its callbacks share. *)
Record Session := mkSession {
  myForkId : string;
  editingMenu : Menu;
  suggestionMenu : Menu;
  reviewMenu : Menu;
  suggestionCommands : gmap string Command;
  sharedModel : SharedModel;
  (** [provider.fork()] promises not settled yet *)
  forkPromises : nat;
  (** 'New suggestion' dialogs not answered yet, by fork id *)
  openPrompts : list string;
  (** the calls issued so far, oldest first *)
  calls : list Call
}.

(** ** The monad of callbacks: state plus JavaScript exceptions *)

Inductive Outcome (A : Type) :=
| Returned (a : A) (s : Session)
| Thrown (err : string) (s : Session).
Arguments Returned {A} a s.
Arguments Thrown {A} err s.

Definition Exec (A : Type) : Type := Session -> Outcome A.

Definition ret {A} (a : A) : Exec A := fun s => Returned a s.

Definition bind {A B} (m : Exec A) (k : A -> Exec B) : Exec B :=
  fun s =>
    match m s with
    | Returned a s' => k a s'
    | Thrown err s' => Thrown err s'
    end.

Definition throw {A} (err : string) : Exec A := fun s => Thrown err s.

Declare Scope exec_scope.
Delimit Scope exec_scope with exec.
Bind Scope exec_scope with Exec.
Notation "'let!' x ':=' m 'in' k" := (bind m (fun x => k))
  (at level 10, x name, m at level 100, k at level 200,
   format "'[v' 'let!'  x  ':='  m  'in' '/' k ']'") : exec_scope.
Notation "m1 '>>' m2" := (bind m1 (fun _ => m2))
  (at level 100, m2 at level 200, right associativity,
   format "'[v' m1  '>>' '/' m2 ']'") : exec_scope.

Definition stateOf {A} (o : Outcome A) : Session :=
  match o with
  | Returned _ s => s
  | Thrown _ s => s
  end.

Definition threw {A} (o : Outcome A) : bool :=
  match o with
  | Returned _ _ => false
  | Thrown _ _ => true
  end.

(** [array.forEach(f)]: an exception thrown by [f] ends the loop. *)
Fixpoint forEach {A} (f : A -> Exec unit) (l : list A) : Exec unit :=
  match l with
  | [] => ret tt
  | x :: l' => (f x >> forEach f l')%exec
  end.

(** ** Reads and writes of the captured objects *)

Definition get_myForkId : Exec string := fun s => Returned (myForkId s) s.

Definition set_myForkId (v : string) : Exec unit := fun s =>
  Returned tt (mkSession v (editingMenu s) (suggestionMenu s) (reviewMenu s)
                 (suggestionCommands s) (sharedModel s) (forkPromises s)
                 (openPrompts s) (calls s)).

Definition get_sharedModel : Exec SharedModel :=
  fun s => Returned (sharedModel s) s.

Definition with_editingMenu (f : Menu -> Menu) : Exec unit := fun s =>
  Returned tt (mkSession (myForkId s) (f (editingMenu s)) (suggestionMenu s)
                 (reviewMenu s) (suggestionCommands s) (sharedModel s)
                 (forkPromises s) (openPrompts s) (calls s)).

Definition with_suggestionMenu (f : Menu -> Menu) : Exec unit := fun s =>
  Returned tt (mkSession (myForkId s) (editingMenu s) (f (suggestionMenu s))
                 (reviewMenu s) (suggestionCommands s) (sharedModel s)
                 (forkPromises s) (openPrompts s) (calls s)).

Definition with_reviewMenu (f : Menu -> Menu) : Exec unit := fun s =>
  Returned tt (mkSession (myForkId s) (editingMenu s) (suggestionMenu s)
                 (f (reviewMenu s)) (suggestionCommands s) (sharedModel s)
                 (forkPromises s) (openPrompts s) (calls s)).

Definition with_sharedModel (f : SharedModel -> SharedModel) : Exec unit :=
  fun s =>
  Returned tt (mkSession (myForkId s) (editingMenu s) (suggestionMenu s)
                 (reviewMenu s) (suggestionCommands s) (f (sharedModel s))
                 (forkPromises s) (openPrompts s) (calls s)).

Definition with_forkPromises (f : nat -> nat) : Exec unit := fun s =>
  Returned tt (mkSession (myForkId s) (editingMenu s) (suggestionMenu s)
                 (reviewMenu s) (suggestionCommands s) (sharedModel s)
                 (f (forkPromises s)) (openPrompts s) (calls s)).

Definition with_openPrompts (f : list string -> list string) : Exec unit :=
  fun s =>
  Returned tt (mkSession (myForkId s) (editingMenu s) (suggestionMenu s)
                 (reviewMenu s) (suggestionCommands s) (sharedModel s)
                 (forkPromises s) (f (openPrompts s)) (calls s)).

(** Record a call that leaves the extension. *)
Definition call (c : Call) : Exec unit := fun s =>
  Returned tt (mkSession (myForkId s) (editingMenu s) (suggestionMenu s)
                 (reviewMenu s) (suggestionCommands s) (sharedModel s)
                 (forkPromises s) (openPrompts s) (calls s ++ [c])).

(** ** The library objects the callbacks act on *)

(** [menu.title.label = v] *)
Definition setLabel (v : string) (m : Menu) : Menu := mkMenu v (items m).

(** Lumino [Menu.clearItems()]: removes every item. *)
Definition clearItems (m : Menu) : Menu := mkMenu (title_label m) [].

(** Lumino [Menu.addItem({type: 'command', command})]: inserts a new item
    at the end of the menu; an item with the same command may be there
    already. *)
Definition addItem (command : string) (m : Menu) : Menu :=
  mkMenu (title_label m) (items m ++ [command]).

(** Lumino [CommandRegistry.addCommand(id, options)]: throws when [id] is
    registered already, and registers the command otherwise. *)
Definition addCommand (id : string) (cmd : Command) : Exec unit := fun s =>
  match suggestionCommands s !! id with
  | Some _ => throw ("Command '" +:+ id +:+ "' already registered.") s
  | None =>
      Returned tt (mkSession (myForkId s) (editingMenu s) (suggestionMenu s)
                     (reviewMenu s) (<[id := cmd]> (suggestionCommands s))
                     (sharedModel s) (forkPromises s) (openPrompts s)
                     (calls s))
  end.

(** [provider.fork()]: the request is issued and its promise is pending. *)
Definition provider_fork : Exec unit :=
  (call Fork >> with_forkPromises S)%exec.

(** Modelled from the spec: the provider's [connectFork] is not part of
    this package; the spec has [currentRoomId] mirror the room currently
    connected to, so the call is logged and [currentRoomId] follows it. *)
Definition provider_connectFork (roomId : string) : Exec unit :=
  (call (ConnectFork roomId) >>
   with_sharedModel (fun m => mkSharedModel (rootRoomId m) roomId))%exec.

(** [requestDocMerge(current, root)]: nothing is done with its result. *)
Definition requestDocMerge (current root : string) : Exec unit :=
  call (RequestDocMerge current root).

(** [new Dialog({title: 'Suggestion', ...}).launch()]; its continuation
    only closes the dialog. *)
Definition launchSuggestionDialog : Exec unit := call DialogSuggestion.

(** [new Dialog({title: 'New suggestion', ...}).launch()]: the dialog stays
    open until it is answered. *)
Definition launchNewSuggestionDialog (forkId : string) : Exec unit :=
  (call (DialogNewSuggestion forkId) >>
   with_openPrompts (fun l => l ++ [forkId]))%exec.

(** ** The callbacks of [createNew] *)

Open Scope exec_scope.

(** [editingCommands.addCommand('editing', ...)] *)
Definition editing_execute : Exec unit :=
  with_editingMenu (setLabel "Editing") >>
  with_suggestionMenu (setLabel "Root").

(** The continuation given to [provider.fork().then]. *)
Definition fork_then (newForkId : string) : Exec unit :=
  set_myForkId newForkId >>
  provider_connectFork newForkId >>
  with_suggestionMenu (setLabel newForkId).

(** [editingCommands.addCommand('suggesting', ...)]; the continuation
    [fork_then] runs when the promise of [provider_fork] resolves. *)
Definition suggesting_execute : Exec unit :=
  with_editingMenu (setLabel "Suggesting") >>
  with_reviewMenu clearItems >>
  let! mine := get_myForkId in
  if String.eqb mine "" then
    set_myForkId "pending" >>
    provider_fork
  else
    with_suggestionMenu (setLabel mine) >>
    provider_connectFork mine.

(** [suggestionCommands.addCommand('root', ...)] *)
Definition root_execute : Exec unit :=
  with_reviewMenu clearItems >>
  with_suggestionMenu (setLabel "Root") >>
  with_editingMenu (setLabel "Editing") >>
  let! model := get_sharedModel in
  provider_connectFork (rootRoomId model).

(** [reviewCommands.addCommand('merge', ...)] *)
Definition merge_execute : Exec unit :=
  let! model := get_sharedModel in
  requestDocMerge (currentRoomId model) (rootRoomId model).

(** [reviewCommands.addCommand('discard', ...)]: an empty body. *)
Definition discard_execute : Exec unit := ret tt.

(** The command registered for an announced fork. *)
Definition suggestion_execute (newForkId : string) : Exec unit :=
  let! mine := get_myForkId in
  (if String.eqb mine newForkId then
     with_editingMenu (setLabel "Suggesting") >>
     with_reviewMenu clearItems
   else
     with_editingMenu (setLabel "Editing") >>
     with_reviewMenu clearItems >>
     with_reviewMenu (addItem "merge") >>
     with_reviewMenu (addItem "discard")) >>
  with_suggestionMenu (setLabel newForkId) >>
  provider_connectFork newForkId >>
  launchSuggestionDialog.

(** The continuation of the 'New suggestion' dialog; [label] is the label
    of the button the dialog resolved with. *)
Definition newSuggestion_then (newForkId label : string) : Exec unit :=
  if String.eqb label "Open" then
    provider_connectFork newForkId >>
    with_suggestionMenu (setLabel newForkId) >>
    with_editingMenu (setLabel "Editing") >>
    with_reviewMenu clearItems >>
    with_reviewMenu (addItem "merge") >>
    with_reviewMenu (addItem "discard")
  else ret tt.

(** An entry of [changes.stateChange]; only its name is read. *)
Record StateChange := mkStateChange { name : string }.

(** A [NotebookChange]; [stateChange] may be undefined. *)
Record NotebookChange := mkNotebookChange {
  stateChange : option (list StateChange)
}.

Definition forkPrefix : string := "fork_".

(** The guard of the discovery dialog:
    [(myForkId !== 'pending') && (myForkId !== newForkId)]. *)
Definition isForeign (mine newForkId : string) : bool :=
  negb (String.eqb mine "pending") && negb (String.eqb mine newForkId).

(** The body of [changes.stateChange.forEach]. *)
Definition onStateChange (value : StateChange) : Exec unit :=
  if startsWith (name value) forkPrefix then
    let newForkId := slice (String.length forkPrefix) (name value) in
    addCommand newForkId (CmdSuggestion newForkId) >>
    with_suggestionMenu (addItem newForkId) >>
    let! mine := get_myForkId in
    if isForeign mine newForkId then launchNewSuggestionDialog newForkId
    else ret tt
  else ret tt.

(** The slot connected to [sharedModel.changed]. *)
Definition _onStateChanged (changes : NotebookChange) : Exec unit :=
  match stateChange changes with
  | Some entries => forEach onStateChange entries
  | None => ret tt
  end.

Close Scope exec_scope.

(** The session right after [createNew]. *)
Definition createNew (model : SharedModel) : Session :=
  {| myForkId := "";
     editingMenu := mkMenu "Editing" ["editing"; "suggesting"];
     suggestionMenu := mkMenu "Root" ["root"];
     reviewMenu := mkMenu "Review" [];
     suggestionCommands := {[ "root" := CmdRoot ]};
     sharedModel := model;
     forkPromises := 0;
     openPrompts := [];
     calls := [] |}.

(** ** The event loop *)

(** What can happen to a session: the user picks a menu item, the shared
    model signals a change, the fork promise settles, or the user answers
    a 'New suggestion' dialog with the button labelled [label]. *)
Inductive Event :=
| SelectEditing
| SelectSuggesting
| SelectSuggestion (command : string)
| SelectMerge
| SelectDiscard
| SharedModelChanged (changes : NotebookChange)
| ForkResolved (newForkId : string)
| ForkRejected
| PromptAnswered (forkId label : string).

(** Removes the first open dialog for [forkId]. *)
Fixpoint closePrompt (forkId : string) (l : list string) : list string :=
  match l with
  | [] => []
  | x :: l' => if String.eqb x forkId then l' else x :: closePrompt forkId l'
  end.

(** The callback an event runs. A suggestion-menu item executes the
    command registered under its id; a rejected fork promise runs nothing,
    since [then] was given no rejection handler. *)
Definition react (e : Event) : Exec unit :=
  match e with
  | SelectEditing => editing_execute
  | SelectSuggesting => suggesting_execute
  | SelectSuggestion command => fun s =>
      match suggestionCommands s !! command with
      | Some CmdRoot => root_execute s
      | Some (CmdSuggestion newForkId) => suggestion_execute newForkId s
      | None => Returned tt s
      end
  | SelectMerge => merge_execute
  | SelectDiscard => discard_execute
  | SharedModelChanged changes => _onStateChanged changes
  | ForkResolved newForkId =>
      (with_forkPromises Nat.pred >> fork_then newForkId)%exec
  | ForkRejected => with_forkPromises Nat.pred
  | PromptAnswered forkId label =>
      (with_openPrompts (closePrompt forkId) >>
       newSuggestion_then forkId label)%exec
  end.

(** Whether an event can happen in a session: a menu item can be picked
    when the menu shows it, a promise settles when one is pending, a dialog
    is answered when it is open. *)
Definition enabled (s : Session) (e : Event) : bool :=
  match e with
  | SelectEditing => bool_decide ("editing" ∈ items (editingMenu s))
  | SelectSuggesting => bool_decide ("suggesting" ∈ items (editingMenu s))
  | SelectSuggestion command => bool_decide (command ∈ items (suggestionMenu s))
  | SelectMerge => bool_decide ("merge" ∈ items (reviewMenu s))
  | SelectDiscard => bool_decide ("discard" ∈ items (reviewMenu s))
  | SharedModelChanged _ => true
  | ForkResolved _ | ForkRejected => negb (Nat.eqb (forkPromises s) 0)
  | PromptAnswered forkId _ => bool_decide (forkId ∈ openPrompts s)
  end.

(** One turn of the event loop; an exception of a callback is lost to the
    session, which keeps the state the callback had reached. *)
Definition step (s : Session) (e : Event) : Session := stateOf (react e s).

(** A sequence of events, each enabled when it happens. *)
Fixpoint run (s : Session) (es : list Event) : option Session :=
  match es with
  | [] => Some s
  | e :: es' => if enabled s e then run (step s e) es' else None
  end.

(** The sessions a document opened on [model] can be in. *)
Inductive Reachable (model : SharedModel) : Session -> Prop :=
| Reachable_createNew : Reachable model (createNew model)
| Reachable_step s e :
    Reachable model s -> enabled s e = true -> Reachable model (step s e).

(** Whether a call is [provider.fork()], and how many a call log has. *)
Definition isFork (c : Call) : bool :=
  match c with
  | Fork => true
  | _ => false
  end.

Fixpoint forkCalls (l : list Call) : nat :=
  match l with
  | [] => 0
  | c :: l' => (if isFork c then 1 else 0) + forkCalls l'
  end.

(** A change notification with the single changed field [key]. *)
Definition fieldChanged (key : string) : NotebookChange :=
  mkNotebookChange (Some [mkStateChange key]).

(** The event that announces the fork [forkId]: a change notification
    for the state field named [fork_<forkId>]. *)
Definition announce (forkId : string) : Event :=
  SharedModelChanged (fieldChanged (forkPrefix +:+ forkId)).

(** A document whose root room is ["room0"], used in the examples. *)
Definition room0 : SharedModel := mkSharedModel "room0" "room0".

(** ** Invariants and frames used in the proofs *)

(** The discovery dialogs in a list of calls are all for forks that are
    foreign to [mine], and the list holds nothing but such dialogs. *)
Definition onlyForeignPrompts (mine : string) (new : list Call) : Prop :=
  Forall (fun c => exists forkId,
            c = DialogNewSuggestion forkId /\ isForeign mine forkId = true)
         new.

(** [_onStateChanged] only registers commands, adds suggestion items and
    opens discovery dialogs. *)
Record Announced (s s' : Session) : Prop := mkAnnounced {
  ann_myForkId : myForkId s' = myForkId s;
  ann_editingMenu : editingMenu s' = editingMenu s;
  ann_reviewMenu : reviewMenu s' = reviewMenu s;
  ann_label :
    title_label (suggestionMenu s') = title_label (suggestionMenu s);
  ann_sharedModel : sharedModel s' = sharedModel s;
  ann_forkPromises : forkPromises s' = forkPromises s;
  ann_commands : forall id cmd,
    suggestionCommands s !! id = Some cmd ->
    suggestionCommands s' !! id = Some cmd;
  ann_calls : exists new,
    calls s' = calls s ++ new /\ onlyForeignPrompts (myForkId s) new
}.

(** At most one fork promise is pending, and while it is, [myForkId] is
    the placeholder. *)
Definition PromiseInv (s : Session) : Prop :=
  forkPromises s = 0 \/ (forkPromises s = 1 /\ myForkId s = "pending").

(** The bookkeeping behind "one fork per user": a [fork()] call has been
    issued at most once, and not at all while [myForkId] is empty. *)
Definition ForkInv (s : Session) : Prop :=
  PromiseInv s
  /\ forkCalls (calls s) <= 1
  /\ (myForkId s = "" -> forkCalls (calls s) = 0).

(** What the body of the [forEach] loop does to a session when it
    registers the fork [newForkId]: the command and the menu item are
    added, and the discovery dialog is opened when the fork is foreign. *)
Record Registered (newForkId : string) (s s' : Session) : Prop :=
  mkRegistered {
  reg_myForkId : myForkId s' = myForkId s;
  reg_editingMenu : editingMenu s' = editingMenu s;
  reg_suggestionMenu :
    suggestionMenu s' = addItem newForkId (suggestionMenu s);
  reg_reviewMenu : reviewMenu s' = reviewMenu s;
  reg_commands :
    suggestionCommands s' =
      <[newForkId := CmdSuggestion newForkId]> (suggestionCommands s);
  reg_sharedModel : sharedModel s' = sharedModel s;
  reg_forkPromises : forkPromises s' = forkPromises s;
  reg_openPrompts :
    openPrompts s' =
      openPrompts s ++
        (if isForeign (myForkId s) newForkId then [newForkId] else []);
  reg_calls :
    calls s' =
      calls s ++
        (if isForeign (myForkId s) newForkId
         then [DialogNewSuggestion newForkId] else [])
}.

(** The suggestion menu shows each registered command once and nothing
    else, and the command of a fork is registered under the fork's id. *)
Definition MenuInv (s : Session) : Prop :=
  NoDup (items (suggestionMenu s))
  /\ (forall command,
        command ∈ items (suggestionMenu s) <->
        is_Some (suggestionCommands s !! command))
  /\ (forall command newForkId,
        suggestionCommands s !! command = Some (CmdSuggestion newForkId) ->
        newForkId = command).

(** The editing and review menus keep their shape: the review menu is
    empty or offers 'merge' then 'discard', and it offers them only under
    the editing label 'Editing'. *)
Definition ReviewInv (s : Session) : Prop :=
  (items (reviewMenu s) = []
   \/ (items (reviewMenu s) = ["merge"; "discard"]
       /\ title_label (editingMenu s) = "Editing"))
  /\ title_label (reviewMenu s) = "Review"
  /\ items (editingMenu s) = ["editing"; "suggesting"]
  /\ (title_label (editingMenu s) = "Editing"
      \/ title_label (editingMenu s) = "Suggesting").

(** The number of 'New suggestion' dialogs opened for [forkId] in a call
    log. *)
Fixpoint promptsFor (forkId : string) (l : list Call) : nat :=
  match l with
  | [] => 0
  | DialogNewSuggestion forkId' :: l' =>
      (if String.eqb forkId' forkId then 1 else 0) + promptsFor forkId l'
  | _ :: l' => promptsFor forkId l'
  end.

(** A discovery dialog for a fork is opened at most once, and only once
    the fork is registered. *)
Definition PromptInv (forkId : string) (s : Session) : Prop :=
  promptsFor forkId (calls s) <= 1
  /\ (suggestionCommands s !! forkId = None ->
      promptsFor forkId (calls s) = 0).

(** ** The global awareness plugin *)

(** The part of the application state that the [state.changed] handler of
    [rtcGlobalAwarenessPlugin] reads: [data['layout-restorer:data']], its
    [main] and the [current] widget id of that, each of which can be
    missing. *)
Module LayoutRestorer.
Record Main := mkMain { current : option string }.
Record Data := mkData { main : option Main }.
End LayoutRestorer.

(** [data['layout-restorer:data']?.main?.current || ''] *)
Definition layoutCurrent (data : gmap string LayoutRestorer.Data) : string :=
  match data !! "layout-restorer:data" with
  | Some d =>
      match LayoutRestorer.main d with
      | Some m =>
          match LayoutRestorer.current m with
          | Some c => if String.eqb c "" then "" else c
          | None => ""
          end
      | None => ""
      end
  | None => ""
  end.

(** The value the handler passes to
    [awareness.setLocalStateField('current', _)]; [None] is [null]. *)
Definition currentField (data : gmap string LayoutRestorer.Data)
  : option string :=
  let current := layoutCurrent data in
  if startsWith current "editor" || startsWith current "notebook"
  then Some current
  else None.

(** * Properties *)

(** ** Proof automation *)

(** Unfolds the callbacks down to the reads and writes of the session. *)
Ltac unfold_exec :=
  unfold step, react, editing_execute, suggesting_execute, fork_then,
    root_execute, merge_execute, discard_execute, suggestion_execute,
    newSuggestion_then, provider_fork, provider_connectFork,
    requestDocMerge, launchSuggestionDialog, launchNewSuggestionDialog;
  cbn.

(** Closes a goal of [step_calls] whose new calls hold no dialog that asks
    to open a suggestion. *)
Ltac no_prompt_calls :=
  split;
  [ simpl; rewrite ?app_nil_r, <- ?app_assoc; reflexivity
  | split;
    [ reflexivity
    | let Hin := fresh "Hin" in
      intros ? Hin;
      repeat (apply elem_of_cons in Hin as [Hin|Hin]; [discriminate Hin|]);
      inversion Hin ] ].

Lemma forkCalls_app (l1 l2 : list Call) :
  forkCalls (l1 ++ l2) = forkCalls l1 + forkCalls l2.
Proof.
  induction l1 as [|c l1 IH]; simpl; [reflexivity|].
  rewrite IH. lia.
Qed.

Lemma startsWith_forkPrefix (forkId : string) :
  startsWith (forkPrefix +:+ forkId) forkPrefix = true.
Proof. reflexivity. Qed.

Lemma slice_forkPrefix (forkId : string) :
  slice (String.length forkPrefix) (forkPrefix +:+ forkId) = forkId.
Proof. reflexivity. Qed.

(** ** The review commands *)

(** C8: executing the 'merge' command issues exactly one
    [requestDocMerge] call, with the shared model's [currentRoomId] and
    [rootRoomId] in that order, and changes nothing else of the session:
    [myForkId], the three menus, the registered commands, the connection
    and the pending promises and dialogs are the same afterwards, so no
    completion or failure of the request is awaited. *)
Theorem merge_requests_once (s : Session) :
  step s SelectMerge =
    {| myForkId := myForkId s;
       editingMenu := editingMenu s;
       suggestionMenu := suggestionMenu s;
       reviewMenu := reviewMenu s;
       suggestionCommands := suggestionCommands s;
       sharedModel := sharedModel s;
       forkPromises := forkPromises s;
       openPrompts := openPrompts s;
       calls := calls s ++ [RequestDocMerge (currentRoomId (sharedModel s))
                                            (rootRoomId (sharedModel s))] |}
  /\ threw (react SelectMerge s) = false.
Proof. split; reflexivity. Qed.

(** ** The editing commands *)

(** C10: executing the 'editing' command rewrites the two title labels
    and nothing else: no call is issued (in particular no [connectFork]),
    and [myForkId], the review menu and the connection are unchanged; the
    'root' command is the one that issues [connectFork(rootRoomId)]. *)
Theorem editing_changes_labels_only (s : Session) :
  step s SelectEditing =
    {| myForkId := myForkId s;
       editingMenu := setLabel "Editing" (editingMenu s);
       suggestionMenu := setLabel "Root" (suggestionMenu s);
       reviewMenu := reviewMenu s;
       suggestionCommands := suggestionCommands s;
       sharedModel := sharedModel s;
       forkPromises := forkPromises s;
       openPrompts := openPrompts s;
       calls := calls s |}
  /\ calls (stateOf (root_execute s)) =
       calls s ++ [ConnectFork (rootRoomId (sharedModel s))].
Proof. split; reflexivity. Qed.

(** C9: when 'Suggesting' is selected while [myForkId] is the placeholder
    ["pending"], no [fork()] call is issued and no promise is added, but
    [connectFork] is called with the string ["pending"] and the suggestion
    menu is labelled ["pending"]. *)
Theorem suggesting_while_pending (s : Session) :
  myForkId s = "pending" ->
  let s' := step s SelectSuggesting in
  calls s' = calls s ++ [ConnectFork "pending"]
  /\ forkCalls (calls s') = forkCalls (calls s)
  /\ forkPromises s' = forkPromises s
  /\ title_label (suggestionMenu s') = "pending"
  /\ myForkId s' = "pending".
Proof.
  intros Hmine. unfold_exec. rewrite Hmine. simpl.
  rewrite forkCalls_app. simpl. repeat split. lia.
Qed.

Lemma suggesting_while_pending_witness :
  let s := step (createNew room0) SelectSuggesting in
  myForkId s = "pending"
  /\ calls (step s SelectSuggesting) = [Fork; ConnectFork "pending"].
Proof.
  split; [reflexivity|].
  apply (suggesting_while_pending (step (createNew room0) SelectSuggesting)).
  reflexivity.
Defined.

(** ** What a change notification can touch *)

Lemma Announced_refl (s : Session) : Announced s s.
Proof.
  constructor; try reflexivity; [auto|].
  exists []. split; [by rewrite app_nil_r | constructor].
Qed.

Lemma Announced_trans (s1 s2 s3 : Session) :
  Announced s1 s2 -> Announced s2 s3 -> Announced s1 s3.
Proof.
  intros [Hm ? ? ? ? ? Hc1 (n1 & Hn1 & Hf1)] [? ? ? ? ? ? Hc2 (n2 & Hn2 & Hf2)].
  constructor; try congruence; [auto|].
  exists (n1 ++ n2). split.
  - rewrite Hn2, Hn1. by rewrite app_assoc.
  - apply Forall_app. split; [done|]. by rewrite <- Hm.
Qed.

Lemma onStateChange_Announced (value : StateChange) (s : Session) :
  Announced s (stateOf (onStateChange value s)).
Proof.
  unfold onStateChange.
  destruct (startsWith (name value) forkPrefix); [|apply Announced_refl].
  generalize (slice (String.length forkPrefix) (name value)).
  intros newForkId. cbv zeta.
  unfold bind at 1. unfold addCommand.
  destruct (suggestionCommands s !! newForkId) eqn:Hreg;
    [apply Announced_refl|].
  unfold_exec. simpl.
  destruct (isForeign (myForkId s) newForkId) eqn:Hforeign; simpl.
  - constructor; simpl; try reflexivity.
    + intros id cmd Hid. rewrite lookup_insert_ne; [done|congruence].
    + exists [DialogNewSuggestion newForkId]. split; [done|].
      constructor; [eauto|constructor].
  - constructor; simpl; try reflexivity.
    + intros id cmd Hid. rewrite lookup_insert_ne; [done|congruence].
    + exists []. split; [by rewrite app_nil_r | constructor].
Qed.

Lemma forEach_onStateChange_Announced (entries : list StateChange) :
  forall s, Announced s (stateOf (forEach onStateChange entries s)).
Proof.
  induction entries as [|value entries IH]; intros s; simpl.
  - apply Announced_refl.
  - unfold bind.
    pose proof (onStateChange_Announced value s) as Hhead.
    destruct (onStateChange value s) as [[] s1|err s1]; simpl in *.
    + eapply Announced_trans; [exact Hhead | apply IH].
    + exact Hhead.
Qed.

Lemma onStateChanged_Announced (changes : NotebookChange) (s : Session) :
  Announced s (stateOf (_onStateChanged changes s)).
Proof.
  unfold _onStateChanged.
  destruct (stateChange changes) as [entries|].
  - apply forEach_onStateChange_Announced.
  - apply Announced_refl.
Qed.

Lemma onlyForeignPrompts_forkCalls (mine : string) (new : list Call) :
  onlyForeignPrompts mine new -> forkCalls new = 0.
Proof.
  induction 1 as [|c new (forkId & -> & _) _ IH]; simpl; [reflexivity|exact IH].
Qed.

(** ** What one turn of the event loop does to the fork bookkeeping *)

(** The value of [myForkId] after an event. *)
Lemma step_myForkId (s : Session) (e : Event) :
  myForkId (step s e) =
    match e with
    | SelectSuggesting =>
        if String.eqb (myForkId s) "" then "pending" else myForkId s
    | ForkResolved newForkId => newForkId
    | _ => myForkId s
    end.
Proof.
  destruct e; try reflexivity.
  - unfold_exec. by destruct (String.eqb (myForkId s) "").
  - unfold step, react.
    destruct (suggestionCommands s !! command) as [[|newForkId]|];
      try reflexivity.
    unfold_exec. by destruct (String.eqb (myForkId s) newForkId).
  - apply (ann_myForkId _ _ (onStateChanged_Announced changes s)).
  - unfold_exec. by destruct (String.eqb label "Open").
Qed.

(** The number of pending fork promises after an event. *)
Lemma step_forkPromises (s : Session) (e : Event) :
  forkPromises (step s e) =
    match e with
    | SelectSuggesting =>
        if String.eqb (myForkId s) "" then S (forkPromises s)
        else forkPromises s
    | ForkResolved _ | ForkRejected => Nat.pred (forkPromises s)
    | _ => forkPromises s
    end.
Proof.
  destruct e; try reflexivity.
  - unfold_exec. by destruct (String.eqb (myForkId s) "").
  - unfold step, react.
    destruct (suggestionCommands s !! command) as [[|newForkId]|];
      try reflexivity.
    unfold_exec. by destruct (String.eqb (myForkId s) newForkId).
  - apply (ann_forkPromises _ _ (onStateChanged_Announced changes s)).
  - unfold_exec. by destruct (String.eqb label "Open").
Qed.

(** The calls an event adds to the log: a [fork()] call only when
    'Suggesting' is selected with an empty [myForkId], and a discovery
    dialog only for a fork that is foreign to the current [myForkId]. *)
Lemma step_calls (s : Session) (e : Event) :
  exists new,
    calls (step s e) = calls s ++ new
    /\ forkCalls new =
         match e with
         | SelectSuggesting => if String.eqb (myForkId s) "" then 1 else 0
         | _ => 0
         end
    /\ forall forkId,
         DialogNewSuggestion forkId ∈ new ->
         isForeign (myForkId s) forkId = true.
Proof.
  destruct e.
  - exists []. no_prompt_calls.
  - unfold_exec. destruct (String.eqb (myForkId s) ""); simpl.
    + exists [Fork]. no_prompt_calls.
    + exists [ConnectFork (myForkId s)]. no_prompt_calls.
  - unfold step, react.
    destruct (suggestionCommands s !! command) as [[|newForkId]|].
    + exists [ConnectFork (rootRoomId (sharedModel s))]. no_prompt_calls.
    + exists [ConnectFork newForkId; DialogSuggestion]. unfold_exec.
      destruct (String.eqb (myForkId s) newForkId); simpl; no_prompt_calls.
    + exists []. no_prompt_calls.
  - eexists [_]. no_prompt_calls.
  - exists []. no_prompt_calls.
  - destruct (ann_calls _ _ (onStateChanged_Announced changes s))
      as (new & Hnew & Hforeign).
    exists new. split; [done|].
    split; [by eapply onlyForeignPrompts_forkCalls|].
    intros forkId Hin. unfold onlyForeignPrompts in Hforeign.
    rewrite Forall_forall in Hforeign.
    destruct (Hforeign _ Hin) as (x & [= ->] & Hx). exact Hx.
  - exists [ConnectFork newForkId]. no_prompt_calls.
  - exists []. no_prompt_calls.
  - unfold_exec. destruct (String.eqb label "Open"); simpl.
    + exists [ConnectFork forkId]. no_prompt_calls.
    + exists []. no_prompt_calls.
Qed.

(** ** The fork promise and [myForkId] *)

Lemma step_PromiseInv (s : Session) (e : Event) :
  PromiseInv s -> PromiseInv (step s e).
Proof.
  unfold PromiseInv. rewrite step_myForkId, step_forkPromises.
  intros [Hzero|[Hone Hpending]].
  - rewrite Hzero. destruct e; auto.
    destruct (String.eqb (myForkId s) ""); auto.
  - rewrite Hone, Hpending. destruct e; simpl; auto.
Qed.

Lemma Reachable_PromiseInv (model : SharedModel) (s : Session) :
  Reachable model s -> PromiseInv s.
Proof.
  induction 1 as [|s e _ IH _]; [by left | by apply step_PromiseInv].
Qed.

Lemma run_Reachable (model : SharedModel) (es : list Event) :
  forall s s', Reachable model s -> run s es = Some s' -> Reachable model s'.
Proof.
  induction es as [|e es IH]; simpl; intros s s' Hs Hrun.
  - by injection Hrun as <-.
  - destruct (enabled s e) eqn:He; [|discriminate].
    eapply IH; [|exact Hrun]. by constructor.
Qed.

Lemma step_ForkInv (s : Session) (e : Event) :
  ForkInv s ->
  (forall newForkId, e = ForkResolved newForkId -> newForkId <> "") ->
  ForkInv (step s e).
Proof.
  intros (Hpromise & Hle & Hempty) Hids.
  split; [by apply step_PromiseInv|].
  destruct (step_calls s e) as (new & -> & Hnew & _).
  rewrite forkCalls_app, Hnew, step_myForkId.
  destruct e; try (split; [lia | intros Hmine; specialize (Hempty Hmine); lia]).
  - destruct (String.eqb (myForkId s) "") eqn:Hmine.
    + apply String.eqb_eq in Hmine. specialize (Hempty Hmine).
      split; [lia | discriminate].
    + apply String.eqb_neq in Hmine. split; [lia | done].
  - split; [lia|]. intros ->. by destruct (Hids "").
Qed.

Lemma run_ForkInv (es : list Event) :
  forall s s',
    ForkInv s ->
    (forall newForkId, ForkResolved newForkId ∈ es -> newForkId <> "") ->
    run s es = Some s' ->
    ForkInv s'.
Proof.
  induction es as [|e es IH]; simpl; intros s s' Hinv Hids Hrun.
  - by injection Hrun as <-.
  - destruct (enabled s e); [|discriminate].
    apply (IH (step s e) s'); [|by intros id Hin; apply Hids; right|done].
    apply step_ForkInv; [done|].
    intros id ->. apply Hids. by left.
Qed.

Lemma createNew_ForkInv (model : SharedModel) : ForkInv (createNew model).
Proof. split; [by left|]. simpl. split; [lia|done]. Qed.

(** C1: in every run of a session in which the provider resolves
    [fork()] with non-empty ids (whatever events are interleaved with the
    'Suggesting' selections, hence also without any 'Root' selection), at
    most one [fork()] call is issued. In the session reached, a 'Suggesting'
    selection with an empty [myForkId] sets it to ["pending"] and issues
    [fork()]; the resolution of the promise with an id sets [myForkId] to
    that id, calls [connectFork] on it and labels the suggestion menu with
    it; and a 'Suggesting' selection with a non-empty [myForkId] calls
    [connectFork] on the stored id and issues no [fork()]. *)
Theorem suggesting_forks_once
    (model : SharedModel) (es : list Event) (s : Session) :
  run (createNew model) es = Some s ->
  (forall newForkId, ForkResolved newForkId ∈ es -> newForkId <> "") ->
  forkCalls (calls s) <= 1
  /\ (myForkId s = "" ->
      let s1 := step s SelectSuggesting in
      myForkId s1 = "pending"
      /\ calls s1 = calls s ++ [Fork]
      /\ forkPromises s1 = S (forkPromises s))
  /\ (forall newForkId,
      let s2 := step s (ForkResolved newForkId) in
      myForkId s2 = newForkId
      /\ calls s2 = calls s ++ [ConnectFork newForkId]
      /\ currentRoomId (sharedModel s2) = newForkId
      /\ title_label (suggestionMenu s2) = newForkId)
  /\ (myForkId s <> "" ->
      let s1 := step s SelectSuggesting in
      myForkId s1 = myForkId s
      /\ calls s1 = calls s ++ [ConnectFork (myForkId s)]
      /\ currentRoomId (sharedModel s1) = myForkId s
      /\ title_label (suggestionMenu s1) = myForkId s
      /\ forkCalls (calls s1) = forkCalls (calls s)).
Proof.
  intros Hrun Hids.
  destruct (run_ForkInv es _ _ (createNew_ForkInv model) Hids Hrun)
    as (_ & Hle & _).
  split; [exact Hle|]. split; [|split].
  - intros Hmine. unfold_exec. rewrite Hmine. simpl. done.
  - intros newForkId. unfold_exec. simpl. done.
  - intros Hmine. apply String.eqb_neq in Hmine. unfold_exec.
    rewrite Hmine. simpl. rewrite forkCalls_app. simpl.
    repeat split. lia.
Qed.

Lemma suggesting_forks_once_witness :
  let es := [SelectSuggesting; SelectSuggesting; ForkResolved "f1";
             SelectEditing; SelectSuggesting] in
  let s := step (step (step (step (step (createNew room0) SelectSuggesting)
                                  SelectSuggesting) (ForkResolved "f1"))
                      SelectEditing) SelectSuggesting in
  run (createNew room0) es = Some s
  /\ calls s = [Fork; ConnectFork "pending"; ConnectFork "f1";
                ConnectFork "f1"]
  /\ forkCalls (calls s) <= 1.
Proof.
  intros es s. split; [by vm_compute|]. split; [by vm_compute|].
  apply (suggesting_forks_once room0 es s); [by vm_compute|].
  intros newForkId Hin.
  repeat (apply elem_of_cons in Hin as [Hin|Hin]; [by inversion Hin|]).
  inversion Hin.
Defined.

(** A fork is never foreign to itself. *)
Lemma isForeign_own (f : string) : isForeign f f = false.
Proof.
  unfold isForeign. rewrite String.eqb_refl. apply andb_false_r.
Qed.

Lemma run_own_fork (f : string) (es : list Event) :
  forall s s',
    PromiseInv s -> myForkId s = f -> f <> "" -> f <> "pending" ->
    run s es = Some s' ->
    myForkId s' = f
    /\ exists new, calls s' = calls s ++ new /\ DialogNewSuggestion f ∉ new.
Proof.
  induction es as [|e es IH]; simpl; intros s s' Hinv Hmine Hne Hnp Hrun.
  - injection Hrun as <-. split; [done|].
    exists []. split; [by rewrite app_nil_r | by intros Hin; inversion Hin].
  - destruct (enabled s e) eqn:He; [|discriminate].
    assert (Hkeep : myForkId (step s e) = f).
    { rewrite step_myForkId. destruct e; try done.
      - apply String.eqb_neq in Hne. by rewrite Hmine, Hne.
      - simpl in He. destruct Hinv as [Hz|[_ Hp]]; [|congruence].
        by rewrite Hz in He. }
    destruct (IH (step s e) s' (step_PromiseInv s e Hinv) Hkeep Hne Hnp Hrun)
      as (Hlast & rest & Hrest & Hnotin).
    split; [done|].
    destruct (step_calls s e) as (new & Hnew & _ & Hforeign).
    exists (new ++ rest). split; [by rewrite Hrest, Hnew, app_assoc|].
    intros Hin. apply elem_of_app in Hin as [Hin|Hin]; [|done].
    apply Hforeign in Hin. rewrite Hmine, isForeign_own in Hin. discriminate.
Qed.

(** C3: once [myForkId] holds a fork id [f] (an id other than the two
    reserved values [""] and ["pending"]), it holds [f] after every further
    run of the session, so the guard of the discovery dialog is false for
    [f] from then on and no 'New suggestion' dialog is ever opened for
    [f]: every later announcement of [f] is taken as the client's own. *)
Theorem own_fork_never_prompted
    (model : SharedModel) (s s' : Session) (f : string) (es : list Event) :
  Reachable model s ->
  myForkId s = f -> f <> "" -> f <> "pending" ->
  run s es = Some s' ->
  myForkId s' = f
  /\ isForeign (myForkId s') f = false
  /\ exists new, calls s' = calls s ++ new /\ DialogNewSuggestion f ∉ new.
Proof.
  intros Hs Hmine Hne Hnp Hrun.
  destruct (run_own_fork f es s s' (Reachable_PromiseInv _ _ Hs)
              Hmine Hne Hnp Hrun) as (Hlast & Hcalls).
  split; [done|]. split; [|done].
  rewrite Hlast. apply isForeign_own.
Qed.

Lemma own_fork_never_prompted_witness :
  let s := step (step (createNew room0) SelectSuggesting)
                (ForkResolved "f1") in
  let es := [announce "f1"; SelectSuggestion "f1"; announce "f1";
             SelectEditing; announce "f2"] in
  myForkId s = "f1"
  /\ exists s',
       run s es = Some s'
       /\ myForkId s' = "f1"
       /\ calls s' = calls s ++ [ConnectFork "f1"; DialogSuggestion;
                                 DialogNewSuggestion "f2"].
Proof.
  intros s es. split; [by vm_compute|].
  destruct (run s es) as [s'|] eqn:Hrun; [|by vm_compute in Hrun].
  exists s'. split; [reflexivity|].
  assert (Hs : Reachable room0 s).
  { apply Reachable_step; [apply Reachable_step|]; [constructor | |];
      by vm_compute. }
  split.
  - apply (own_fork_never_prompted room0 s s' "f1" es Hs);
      [by vm_compute | discriminate | discriminate | exact Hrun].
  - vm_compute in Hrun. injection Hrun as <-. by vm_compute.
Defined.

(** ** The author's own fork in the review menu *)

(** Selecting one's own fork in the suggestion menu takes the branch
    commented "our suggestion, cannot be reviewed": the review menu is
    emptied and the editing menu reads 'Suggesting'. *)
Lemma own_suggestion_not_reviewable (s : Session) (newForkId : string) :
  myForkId s = newForkId ->
  let s' := stateOf (suggestion_execute newForkId s) in
  items (reviewMenu s') = []
  /\ title_label (editingMenu s') = "Suggesting"
  /\ title_label (suggestionMenu s') = newForkId.
Proof.
  intros <-. unfold_exec. rewrite String.eqb_refl. cbn. done.
Qed.

(** C2: the author of a fork can be offered 'Merge' for it. The user
    selects 'Suggesting', the announcement of the fork being created
    arrives while [myForkId] is still ["pending"], the user picks that fork
    in the suggestion menu (it is taken as foreign, so 'Merge' and
    'Discard' are added), and then the fork promise resolves with the same
    id: the session has [myForkId = "f1"], is connected to ["f1"], and its
    review menu still offers 'Merge', which requests the merge of ["f1"]. *)
Theorem own_fork_offered_for_merge :
  let es := [SelectSuggesting; announce "f1"; SelectSuggestion "f1";
             ForkResolved "f1"] in
  exists s,
    run (createNew room0) es = Some s
    /\ myForkId s = "f1"
    /\ title_label (suggestionMenu s) = "f1"
    /\ currentRoomId (sharedModel s) = "f1"
    /\ items (reviewMenu s) = ["merge"; "discard"]
    /\ enabled s SelectMerge = true
    /\ calls (step s SelectMerge) =
         calls s ++ [RequestDocMerge "f1" "room0"].
Proof.
  intros es. destruct (run (createNew room0) es) as [s|] eqn:Hrun;
    [|by vm_compute in Hrun].
  exists s. split; [reflexivity|].
  vm_compute in Hrun. injection Hrun as <-. by vm_compute.
Qed.

(** ** Rejection of the fork promise *)

(** C4, as the claim states it: after a rejected [fork()] the session
    is not back in 'Editing' with an empty [myForkId], and selecting
    'Suggesting' again issues no second [fork()] call. *)
Lemma fork_rejection_not_rolled_back :
  let s := step (createNew room0) SelectSuggesting in
  let s' := step s ForkRejected in
  myForkId s = "pending"
  /\ enabled s ForkRejected = true
  /\ ~ (myForkId s' = "" /\ title_label (editingMenu s') = "Editing")
  /\ forkCalls (calls (step s' SelectSuggesting)) = forkCalls (calls s').
Proof.
  intros s s'. split; [by vm_compute|]. split; [by vm_compute|].
  split; [|by vm_compute].
  intros [Hmine _]. vm_compute in Hmine. discriminate.
Qed.

(** C4, amended: a rejected [fork()] runs no callback. [myForkId] stays
    ["pending"], the menus and the call log are as before, and a further
    'Suggesting' selection issues no [fork()] call: it calls
    [connectFork("pending")]. *)
Theorem fork_rejection_keeps_pending (s : Session) :
  myForkId s = "pending" ->
  let s' := step s ForkRejected in
  myForkId s' = "pending"
  /\ editingMenu s' = editingMenu s
  /\ suggestionMenu s' = suggestionMenu s
  /\ reviewMenu s' = reviewMenu s
  /\ calls s' = calls s
  /\ forkPromises s' = Nat.pred (forkPromises s)
  /\ let s'' := step s' SelectSuggesting in
     myForkId s'' = "pending"
     /\ calls s'' = calls s ++ [ConnectFork "pending"]
     /\ forkCalls (calls s'') = forkCalls (calls s).
Proof.
  intros Hmine. unfold_exec. rewrite Hmine. cbn.
  rewrite forkCalls_app. cbn. repeat split; try done; lia.
Qed.

Lemma fork_rejection_keeps_pending_witness :
  let s := step (createNew room0) SelectSuggesting in
  myForkId s = "pending"
  /\ myForkId (step s ForkRejected) = "pending".
Proof.
  intros s. split; [by vm_compute|].
  apply (fork_rejection_keeps_pending s). by vm_compute.
Defined.

(** ** The 'root' command *)

(** Only a change notification touches the registered commands, and it
    only adds to them. *)
Lemma step_suggestionCommands (s : Session) (e : Event) :
  forall id cmd,
    suggestionCommands s !! id = Some cmd ->
    suggestionCommands (step s e) !! id = Some cmd.
Proof.
  destruct e; try (intros id cmd Hid; exact Hid).
  - intros id cmd Hid. unfold_exec.
    by destruct (String.eqb (myForkId s) "").
  - intros id cmd Hid. unfold step, react.
    destruct (suggestionCommands s !! command) as [[|newForkId]|];
      try exact Hid.
    unfold_exec. by destruct (String.eqb (myForkId s) newForkId).
  - apply (ann_commands _ _ (onStateChanged_Announced changes s)).
  - intros id cmd Hid. unfold_exec. by destruct (String.eqb label "Open").
Qed.

(** No callback writes [rootRoomId]. *)
Lemma step_rootRoomId (s : Session) (e : Event) :
  rootRoomId (sharedModel (step s e)) = rootRoomId (sharedModel s).
Proof.
  destruct e; try reflexivity.
  - unfold_exec. by destruct (String.eqb (myForkId s) "").
  - unfold step, react.
    destruct (suggestionCommands s !! command) as [[|newForkId]|];
      try reflexivity.
    unfold_exec. by destruct (String.eqb (myForkId s) newForkId).
  - exact (f_equal rootRoomId
             (ann_sharedModel _ _ (onStateChanged_Announced changes s))).
  - unfold_exec. by destruct (String.eqb label "Open").
Qed.

Lemma Reachable_root (model : SharedModel) (s : Session) :
  Reachable model s ->
  suggestionCommands s !! "root" = Some CmdRoot
  /\ rootRoomId (sharedModel s) = rootRoomId model.
Proof.
  induction 1 as [|s e _ [IHcmd IHroot] _]; [by vm_compute|].
  split; [by apply step_suggestionCommands | by rewrite step_rootRoomId].
Qed.

(** C5, as the claim states it: selecting 'Root' does not reset
    [myForkId] to the empty string. *)
Lemma root_does_not_reset_myForkId :
  let s := step (step (createNew room0) SelectSuggesting)
                (ForkResolved "f1") in
  enabled s (SelectSuggestion "root") = true
  /\ myForkId (step s (SelectSuggestion "root")) <> "".
Proof.
  intros s. split; [by vm_compute|]. by vm_compute.
Qed.

(** C5, amended: from every session a document can be in, selecting
    'Root' in the suggestion menu calls [connectFork(rootRoomId)] and
    nothing else, so that the session is connected to the root room; the
    editing menu reads 'Editing' and the suggestion menu 'Root'; the review
    menu is emptied; and [myForkId] is left as it was. *)
Theorem root_keeps_myForkId (model : SharedModel) (s : Session) :
  Reachable model s ->
  let s' := step s (SelectSuggestion "root") in
  calls s' = calls s ++ [ConnectFork (rootRoomId model)]
  /\ currentRoomId (sharedModel s') = rootRoomId model
  /\ title_label (editingMenu s') = "Editing"
  /\ title_label (suggestionMenu s') = "Root"
  /\ items (reviewMenu s') = []
  /\ myForkId s' = myForkId s.
Proof.
  intros Hs. destruct (Reachable_root model s Hs) as [Hcmd Hroot].
  unfold step, react. rewrite Hcmd. unfold_exec. by rewrite Hroot.
Qed.

Lemma root_keeps_myForkId_witness :
  let s := step (step (step (createNew room0) (announce "f2"))
                      (PromptAnswered "f2" "Open")) SelectSuggesting in
  let s' := step s (SelectSuggestion "root") in
  Reachable room0 s
  /\ items (reviewMenu s') = []
  /\ myForkId s' = "pending".
Proof.
  intros s s'.
  assert (Hs : Reachable room0 s).
  { repeat (apply Reachable_step; [|by vm_compute]). constructor. }
  split; [exact Hs|].
  destruct (root_keeps_myForkId room0 s Hs) as (_ & _ & _ & _ & Hrev & Hmine).
  split; [exact Hrev|]. fold s' in Hmine. rewrite Hmine. by vm_compute.
Defined.

(** ** Announcements *)

(** Adding a menu item twice shows it twice. *)
Lemma addItem_twice (command : string) (m : Menu) :
  items (addItem command (addItem command m)) <> items (addItem command m).
Proof.
  unfold addItem. cbn. intros Heq.
  apply (f_equal (@length string)) in Heq.
  rewrite !length_app in Heq. cbn in Heq. lia.
Qed.

(** C6, as the claim states it: the second announcement of a fork is
    not processed without an exception. *)
Lemma duplicate_announcement_is_an_error :
  let s := step (createNew room0) (announce "f1") in
  suggestionCommands s !! "f1" = Some (CmdSuggestion "f1")
  /\ ~ (threw (react (announce "f1") s) = false).
Proof.
  intros s. split; [by vm_compute|].
  intros Hthrew. vm_compute in Hthrew. discriminate.
Qed.

(** C6, amended: when a change notification reaches an entry named
    [fork_<id>] whose id is a registered suggestion command, the command
    registration throws its 'already registered' error. The callback ends
    there: the session is exactly as it was before that entry (commands,
    menu items, labels, [myForkId], no dialog opened) and the entries after
    it in the same notification are not processed. *)
Theorem duplicate_announcement_throws
    (s : Session) (forkId : string) (cmd : Command)
    (rest : list StateChange) :
  suggestionCommands s !! forkId = Some cmd ->
  _onStateChanged
    (mkNotebookChange
       (Some (mkStateChange (forkPrefix +:+ forkId) :: rest))) s
  = Thrown ("Command '" +:+ forkId +:+ "' already registered.") s
  /\ step s (announce forkId) = s.
Proof.
  intros Hreg.
  assert (Hentry : onStateChange (mkStateChange (forkPrefix +:+ forkId)) s
                   = Thrown ("Command '" +:+ forkId +:+ "' already registered.") s).
  { unfold onStateChange. cbn [name].
    rewrite startsWith_forkPrefix, slice_forkPrefix.
    unfold bind at 1. unfold addCommand. by rewrite Hreg. }
  split.
  - unfold _onStateChanged. cbn [stateChange forEach].
    unfold bind at 1. by rewrite Hentry.
  - unfold step, react, announce, fieldChanged, _onStateChanged.
    cbn [stateChange forEach].
    unfold bind at 1. by rewrite Hentry.
Qed.

Lemma duplicate_announcement_throws_witness :
  let s := step (createNew room0) (announce "f1") in
  suggestionCommands s !! "f1" = Some (CmdSuggestion "f1")
  /\ step s (announce "f1") = s.
Proof.
  intros s.
  assert (Hreg : suggestionCommands s !! "f1" = Some (CmdSuggestion "f1"))
    by (by vm_compute).
  split; [exact Hreg|].
  exact (proj2 (duplicate_announcement_throws s "f1" _ [] Hreg)).
Defined.

(** C7, as the claim states it: a key whose id is [rootRoomId], and a
    key whose id is empty, are not ignored. The first, sent to a fresh
    session, adds a suggestion item and opens the discovery dialog; so
    does the second, sent to a session that owns the fork ["f1"]. *)
Lemma malformed_announcement_not_ignored :
  let s := createNew room0 in
  let s' := step s (announce (rootRoomId room0)) in
  let t := step (step (createNew room0) SelectSuggesting)
                (ForkResolved "f1") in
  let t' := step t (announce "") in
  ~ (items (suggestionMenu s') = items (suggestionMenu s)
     /\ calls s' = calls s)
  /\ calls s' = calls s ++ [DialogNewSuggestion "room0"]
  /\ ~ (items (suggestionMenu t') = items (suggestionMenu t)
        /\ calls t' = calls t)
  /\ calls t' = calls t ++ [DialogNewSuggestion ""].
Proof.
  intros s s' t t'. split; [|split; [|split]].
  - intros [_ Hcalls]. vm_compute in Hcalls. discriminate.
  - by vm_compute.
  - intros [_ Hcalls]. vm_compute in Hcalls. discriminate.
  - by vm_compute.
Qed.

(** C7, amended: a changed field whose name starts with [fork_] is
    processed whatever the id after the prefix is, the empty id and
    [rootRoomId] included. When that id is not a registered suggestion
    command yet, it is registered, an item for it is added at the end of
    the suggestion menu, and the discovery dialog is opened for it exactly
    when [myForkId] is neither ["pending"] nor that id. *)
Theorem prefixed_key_registered_whatever_id (s : Session) (key : string) :
  startsWith key forkPrefix = true ->
  let newForkId := slice (String.length forkPrefix) key in
  suggestionCommands s !! newForkId = None ->
  let s' := step s (SharedModelChanged (fieldChanged key)) in
  threw (react (SharedModelChanged (fieldChanged key)) s) = false
  /\ suggestionCommands s' =
       <[newForkId := CmdSuggestion newForkId]> (suggestionCommands s)
  /\ items (suggestionMenu s') = items (suggestionMenu s) ++ [newForkId]
  /\ calls s' =
       calls s ++ (if isForeign (myForkId s) newForkId
                   then [DialogNewSuggestion newForkId] else [])
  /\ openPrompts s' =
       openPrompts s ++ (if isForeign (myForkId s) newForkId
                         then [newForkId] else []).
Proof.
  intros Hprefix newForkId Hreg.
  assert (Hentry :
    onStateChange (mkStateChange key) s =
      (if isForeign (myForkId s) newForkId
       then launchNewSuggestionDialog newForkId else ret tt)
        {| myForkId := myForkId s;
           editingMenu := editingMenu s;
           suggestionMenu := addItem newForkId (suggestionMenu s);
           reviewMenu := reviewMenu s;
           suggestionCommands :=
             <[newForkId := CmdSuggestion newForkId]> (suggestionCommands s);
           sharedModel := sharedModel s;
           forkPromises := forkPromises s;
           openPrompts := openPrompts s;
           calls := calls s |}).
  { unfold onStateChange. cbn [name]. rewrite Hprefix. fold newForkId.
    unfold bind at 1. unfold addCommand. by rewrite Hreg. }
  clearbody newForkId.
  unfold step, react, fieldChanged, _onStateChanged.
  cbn [stateChange forEach]. unfold bind. rewrite Hentry.
  destruct (isForeign (myForkId s) newForkId); unfold_exec;
    rewrite ?app_nil_r; done.
Qed.

Lemma prefixed_key_registered_whatever_id_witness :
  let s := step (step (createNew room0) SelectSuggesting)
                (ForkResolved "f1") in
  let s' := step s (SharedModelChanged (fieldChanged "fork_")) in
  startsWith "fork_" forkPrefix = true
  /\ suggestionCommands s !! "" = None
  /\ items (suggestionMenu s') = ["root"; ""]
  /\ calls s' = [Fork; ConnectFork "f1"; DialogNewSuggestion ""].
Proof.
  intros s s'.
  assert (Hprefix : startsWith "fork_" forkPrefix = true) by reflexivity.
  assert (Hreg : suggestionCommands s !! "" = None) by (by vm_compute).
  split; [exact Hprefix|]. split; [exact Hreg|].
  destruct (prefixed_key_registered_whatever_id s "fork_" Hprefix Hreg)
    as (_ & _ & Hitems & Hcalls & _).
  split; [exact Hitems | exact Hcalls].
Defined.

(** * Further properties of the extension *)

(** ** Announcement keys *)

Lemma startsWith_append (pfx rest : string) :
  startsWith (pfx +:+ rest) pfx = true.
Proof.
  induction pfx as [|c pfx IH]; [reflexivity|].
  change (String c pfx +:+ rest) with (String c (pfx +:+ rest)).
  cbn [startsWith]. by rewrite Ascii.eqb_refl, IH.
Qed.

Lemma slice_append (pfx rest : string) :
  slice (String.length pfx) (pfx +:+ rest) = rest.
Proof.
  induction pfx as [|c pfx IH]; [reflexivity|].
  change (String c pfx +:+ rest) with (String c (pfx +:+ rest)).
  exact IH.
Qed.

Lemma startsWith_split (pfx : string) :
  forall key,
    startsWith key pfx = true ->
    key = pfx +:+ slice (String.length pfx) key.
Proof.
  induction pfx as [|c pfx IH]; intros key Hkey; [reflexivity|].
  destruct key as [|d key]; [discriminate|].
  cbn [startsWith] in Hkey. apply andb_true_iff in Hkey as [Hc Hrest].
  apply Ascii.eqb_eq in Hc as ->.
  change (String d key = String d (pfx +:+ slice (String.length pfx) key)).
  f_equal. by apply IH.
Qed.

(** X1: a state-field name is taken as an announcement exactly when it
    is [fork_] followed by some id, and the id the callback extracts from
    it with [slice] is that id: [fork_<id>] passes the prefix test and is
    read back as [<id>], for every id, the empty one included. *)
Theorem announcement_key_round_trip (key newForkId : string) :
  (startsWith key forkPrefix = true <->
   exists forkId, key = forkPrefix +:+ forkId)
  /\ startsWith (forkPrefix +:+ newForkId) forkPrefix = true
  /\ slice (String.length forkPrefix) (forkPrefix +:+ newForkId) = newForkId.
Proof.
  split; [|split].
  - split.
    + intros Hkey. eexists. by apply startsWith_split.
    + intros [forkId ->]. apply startsWith_append.
  - apply startsWith_append.
  - apply slice_append.
Qed.

(** ** One entry of a change notification *)

(** What the loop body does with one entry: it skips a name without the
    prefix, throws on an id that is registered, and registers a new id. *)
Lemma onStateChange_cases (value : StateChange) (s : Session) :
  let newForkId := slice (String.length forkPrefix) (name value) in
  (startsWith (name value) forkPrefix = false
   /\ onStateChange value s = Returned tt s)
  \/ (startsWith (name value) forkPrefix = true
      /\ is_Some (suggestionCommands s !! newForkId)
      /\ onStateChange value s =
           Thrown ("Command '" +:+ newForkId +:+ "' already registered.") s)
  \/ (startsWith (name value) forkPrefix = true
      /\ suggestionCommands s !! newForkId = None
      /\ exists s',
           onStateChange value s = Returned tt s'
           /\ Registered newForkId s s').
Proof.
  intros newForkId. unfold onStateChange. fold newForkId.
  clearbody newForkId.
  destruct (startsWith (name value) forkPrefix); [|by left].
  right.
  unfold bind, addCommand, throw, with_suggestionMenu, get_myForkId,
    launchNewSuggestionDialog, call, with_openPrompts, ret.
  destruct (suggestionCommands s !! newForkId) as [cmd|] eqn:Hreg.
  - left. by eauto.
  - right. split; [done|]. split; [done|]. cbn.
    destruct (isForeign (myForkId s) newForkId) eqn:Hforeign.
    + eexists. split; [reflexivity|].
      constructor; cbn; rewrite ?Hforeign; reflexivity.
    + eexists. split; [reflexivity|].
      constructor; cbn; rewrite ?Hforeign, ?app_nil_r; reflexivity.
Qed.

(** A property kept by every registration is kept by a whole change
    notification, whether the callback returns or throws. *)
Lemma onStateChanged_preserves (P : Session -> Prop) :
  (forall newForkId s s',
      P s -> suggestionCommands s !! newForkId = None ->
      Registered newForkId s s' -> P s') ->
  forall changes s, P s -> P (stateOf (_onStateChanged changes s)).
Proof.
  intros Hreg changes. unfold _onStateChanged.
  destruct (stateChange changes) as [entries|]; [|by intros s Hs].
  induction entries as [|value entries IH]; intros s Hs; [exact Hs|].
  cbn [forEach]. unfold bind.
  destruct (onStateChange_cases value s)
    as [[_ ->]|[(_ & _ & ->)|(_ & Hnone & s' & -> & Hs')]].
  - by apply IH.
  - exact Hs.
  - apply IH. by eapply Hreg.
Qed.

(** ** Events other than change notifications *)

(** Splits a goal about [step s e] into the branches the callbacks take. *)
Ltac event_cases s e :=
  destruct e as [| |command| | |changes|newForkId| |forkId label];
  [ unfold_exec
  | unfold_exec; destruct (String.eqb (myForkId s) "") eqn:Hmine; cbn
  | unfold step, react;
    destruct (suggestionCommands s !! command) as [[|newForkId]|] eqn:Hcmd;
    [ unfold_exec
    | unfold_exec; destruct (String.eqb (myForkId s) newForkId) eqn:Hmine;
      cbn
    | cbn ]
  | unfold_exec
  | unfold_exec
  | idtac
  | unfold_exec
  | unfold_exec
  | unfold_exec; destruct (String.eqb label "Open") eqn:Hlabel; cbn ].

Lemma promptsFor_app (forkId : string) (l1 l2 : list Call) :
  promptsFor forkId (l1 ++ l2) = promptsFor forkId l1 + promptsFor forkId l2.
Proof.
  induction l1 as [|c l1 IH]; cbn; [reflexivity|].
  destruct c; cbn; rewrite IH; lia.
Qed.

(** Menu selections, promise settlements and dialog answers neither
    register a command, nor add or remove a suggestion item, nor open a
    discovery dialog. *)
Lemma step_keeps_suggestions (s : Session) (e : Event) :
  match e with
  | SharedModelChanged _ => True
  | _ =>
      items (suggestionMenu (step s e)) = items (suggestionMenu s)
      /\ suggestionCommands (step s e) = suggestionCommands s
      /\ forall forkId,
           promptsFor forkId (calls (step s e)) = promptsFor forkId (calls s)
  end.
Proof.
  event_cases s e; try exact I;
    (split; [reflexivity|]; split; [reflexivity|]; intros ?;
     rewrite ?promptsFor_app; cbn; lia).
Qed.

(** ** The suggestion menu and its command registry *)

Lemma createNew_MenuInv (model : SharedModel) : MenuInv (createNew model).
Proof.
  split; [|split]; cbn.
  - apply NoDup_singleton.
  - intros command. rewrite list_elem_of_singleton. split.
    + intros ->. by rewrite lookup_singleton_eq.
    + intros [cmd Hcmd]. apply lookup_singleton_Some in Hcmd. by destruct Hcmd.
  - intros command newForkId Hcmd.
    apply lookup_singleton_Some in Hcmd. by destruct Hcmd.
Qed.

Lemma Registered_MenuInv (newForkId : string) (s s' : Session) :
  MenuInv s -> suggestionCommands s !! newForkId = None ->
  Registered newForkId s s' -> MenuInv s'.
Proof.
  intros (Hnodup & Hiff & Hkey) Hnone Hreg.
  unfold MenuInv.
  rewrite (reg_suggestionMenu _ _ _ Hreg), (reg_commands _ _ _ Hreg). cbn.
  split; [|split].
  - apply NoDup_app. split; [exact Hnodup|]. split; [|apply NoDup_singleton].
    intros command Hin Hnew. apply list_elem_of_singleton in Hnew as ->.
    apply Hiff in Hin. rewrite Hnone in Hin. by destruct Hin.
  - intros command. rewrite elem_of_app, list_elem_of_singleton, Hiff.
    destruct (decide (command = newForkId)) as [->|Hne].
    + rewrite lookup_insert_eq. split; [by eauto | by right].
    + rewrite lookup_insert_ne by done. split; [|by left].
      by intros [Hin|Heq].
  - intros command forkId.
    destruct (decide (command = newForkId)) as [->|Hne].
    + rewrite lookup_insert_eq. by intros [= ->].
    + rewrite lookup_insert_ne by done. apply Hkey.
Qed.

Lemma step_MenuInv (s : Session) (e : Event) : MenuInv s -> MenuInv (step s e).
Proof.
  intros Hinv. pose proof (step_keeps_suggestions s e) as Hkeep.
  destruct e;
    try (destruct Hkeep as (Hitems & Hcmds & _); unfold MenuInv;
         rewrite Hitems, Hcmds; exact Hinv).
  apply (onStateChanged_preserves MenuInv Registered_MenuInv changes s Hinv).
Qed.

Lemma Reachable_MenuInv (model : SharedModel) (s : Session) :
  Reachable model s -> MenuInv s.
Proof.
  induction 1 as [|s e _ IH _];
    [apply createNew_MenuInv | by apply step_MenuInv].
Qed.

(** X2: in every session a document can be in, the suggestion menu and
    the command registry agree: no item is shown twice, an id is a menu
    item exactly when a command is registered under it, the command
    registered for a fork connects to the fork it is registered under, and
    'root' is the root command. So every item the user can pick runs a
    command, and picking the item of a fork opens that fork. *)
Theorem suggestion_menu_matches_registry (model : SharedModel) (s : Session) :
  Reachable model s ->
  NoDup (items (suggestionMenu s))
  /\ (forall command,
        command ∈ items (suggestionMenu s) <->
        is_Some (suggestionCommands s !! command))
  /\ (forall command newForkId,
        suggestionCommands s !! command = Some (CmdSuggestion newForkId) ->
        newForkId = command)
  /\ suggestionCommands s !! "root" = Some CmdRoot.
Proof.
  intros Hs.
  destruct (Reachable_MenuInv model s Hs) as (Hnodup & Hiff & Hkey).
  repeat split; try done; try apply Hiff.
  apply (Reachable_root model s Hs).
Qed.

Lemma suggestion_menu_matches_registry_witness :
  let s := step (step (createNew room0) (announce "f1")) (announce "f1") in
  Reachable room0 s
  /\ NoDup (items (suggestionMenu s))
  /\ items (suggestionMenu s) = ["root"; "f1"].
Proof.
  intros s.
  assert (Hs : Reachable room0 s).
  { repeat (apply Reachable_step; [|by vm_compute]). constructor. }
  split; [exact Hs|]. split; [|by vm_compute].
  exact (proj1 (suggestion_menu_matches_registry room0 s Hs)).
Defined.

(** X3: no event removes a fork from the suggestion menu or from the
    registry, neither 'Merge' nor 'Discard' nor 'Root': along every run the
    menu items only grow at the end, and a registered command stays
    registered, unchanged. *)
Theorem suggestion_items_only_grow (es : list Event) :
  forall s s',
    run s es = Some s' ->
    (exists more,
        items (suggestionMenu s') = items (suggestionMenu s) ++ more)
    /\ (forall command cmd,
          suggestionCommands s !! command = Some cmd ->
          suggestionCommands s' !! command = Some cmd).
Proof.
  induction es as [|e es IH]; cbn; intros s s' Hrun.
  - injection Hrun as <-. split; [|done]. exists []. by rewrite app_nil_r.
  - destruct (enabled s e); [|discriminate].
    destruct (IH _ _ Hrun) as ((more & Hmore) & Hcmds).
    split.
    + assert (Hstep : exists new, items (suggestionMenu (step s e)) =
                                  items (suggestionMenu s) ++ new).
      { pose proof (step_keeps_suggestions s e) as Hkeep.
        destruct e;
          try (destruct Hkeep as (-> & _); exists []; by rewrite app_nil_r).
        apply (onStateChanged_preserves
                 (fun t => exists new, items (suggestionMenu t) =
                                       items (suggestionMenu s) ++ new));
          [|exists []; by rewrite app_nil_r].
        intros newForkId t t' [new Hnew] _ Hreg.
        rewrite (reg_suggestionMenu _ _ _ Hreg). cbn. rewrite Hnew.
        exists (new ++ [newForkId]). by rewrite app_assoc. }
      destruct Hstep as [new Hnew]. exists (new ++ more).
      by rewrite Hmore, Hnew, app_assoc.
    + intros command cmd Hcmd. apply Hcmds.
      by apply step_suggestionCommands.
Qed.

Lemma suggestion_items_only_grow_witness :
  let s := step (step (createNew room0) (announce "f1"))
                (PromptAnswered "f1" "Open") in
  let es := [SelectMerge; SelectDiscard; SelectSuggestion "root"] in
  exists s',
    run s es = Some s'
    /\ exists more,
         items (suggestionMenu s') = items (suggestionMenu s) ++ more.
Proof.
  intros s es. destruct (run s es) as [s'|] eqn:Hrun;
    [|by vm_compute in Hrun].
  exists s'. split; [reflexivity|].
  exact (proj1 (suggestion_items_only_grow es s s' Hrun)).
Defined.

(** ** The shape of the editing and review menus *)

Lemma step_ReviewInv (s : Session) (e : Event) :
  ReviewInv s -> ReviewInv (step s e).
Proof.
  intros Hinv.
  destruct e as [| |command| | |changes|newForkId| |forkId label].
  6: { apply (onStateChanged_preserves ReviewInv); [|exact Hinv].
       intros id t t' Ht _ Hreg. unfold ReviewInv.
       by rewrite (reg_reviewMenu _ _ _ Hreg), (reg_editingMenu _ _ _ Hreg). }
  all: unfold ReviewInv in *; destruct Hinv as (Hrev & Htitle & Hitems & Hlabel).
  - unfold_exec. destruct Hrev as [Hrev|[Hrev _]]; auto 6.
  - unfold_exec. destruct (String.eqb (myForkId s) ""); cbn; auto 6.
  - unfold step, react.
    destruct (suggestionCommands s !! command) as [[|newForkId]|];
      [unfold_exec; auto 6| |cbn; auto 6].
    unfold_exec. destruct (String.eqb (myForkId s) newForkId); cbn; auto 6.
  - unfold_exec. auto 6.
  - unfold_exec. auto 6.
  - unfold_exec. auto 6.
  - unfold_exec. auto 6.
  - unfold_exec. destruct (String.eqb label "Open"); cbn; auto 6.
Qed.

(** X4: in every session a document can be in, the review menu is
    either empty or offers exactly 'merge' then 'discard' (the two are
    never offered twice, however often forks are opened), and it offers
    them only while the editing menu reads 'Editing': after 'Suggesting'
    was selected there is nothing to merge. The editing menu keeps its two
    items and reads 'Editing' or 'Suggesting'. *)
Theorem review_menu_shape (model : SharedModel) (s : Session) :
  Reachable model s ->
  (items (reviewMenu s) = []
   \/ (items (reviewMenu s) = ["merge"; "discard"]
       /\ title_label (editingMenu s) = "Editing"))
  /\ title_label (reviewMenu s) = "Review"
  /\ items (editingMenu s) = ["editing"; "suggesting"]
  /\ (title_label (editingMenu s) = "Editing"
      \/ title_label (editingMenu s) = "Suggesting").
Proof.
  intros Hs. change (ReviewInv s).
  induction Hs as [|s e _ IH _]; [|by apply step_ReviewInv].
  unfold ReviewInv. cbn. auto 6.
Qed.

Lemma review_menu_shape_witness :
  let s := step (step (step (createNew room0) (announce "f1"))
                      (PromptAnswered "f1" "Open"))
                (SelectSuggestion "f1") in
  Reachable room0 s
  /\ items (reviewMenu s) = ["merge"; "discard"]
  /\ title_label (reviewMenu s) = "Review".
Proof.
  intros s.
  assert (Hs : Reachable room0 s).
  { repeat (apply Reachable_step; [|by vm_compute]). constructor. }
  split; [exact Hs|]. split; [by vm_compute|].
  exact (proj1 (proj2 (review_menu_shape room0 s Hs))).
Defined.

(** ** How often the discovery dialog is opened *)

Lemma step_prompts_frozen (forkId : string) (s : Session) (e : Event) :
  is_Some (suggestionCommands s !! forkId) ->
  promptsFor forkId (calls (step s e)) = promptsFor forkId (calls s).
Proof.
  intros Hsome. pose proof (step_keeps_suggestions s e) as Hkeep.
  destruct e; try (destruct Hkeep as (_ & _ & Hprompts); apply Hprompts).
  apply (onStateChanged_preserves
           (fun t => is_Some (suggestionCommands t !! forkId)
                     /\ promptsFor forkId (calls t) =
                        promptsFor forkId (calls s))); [|done].
  intros newForkId t t' [Hreg Hcount] Hnone Hnew.
  assert (Hne : newForkId <> forkId).
  { intros ->. rewrite Hnone in Hreg. by destruct Hreg. }
  rewrite (reg_commands _ _ _ Hnew), (reg_calls _ _ _ Hnew).
  rewrite lookup_insert_ne by done. split; [done|].
  rewrite promptsFor_app, Hcount.
  destruct (isForeign (myForkId t) newForkId); cbn; [|lia].
  apply String.eqb_neq in Hne. rewrite Hne. lia.
Qed.

(** X5: once a fork is a registered suggestion command (it is in the
    suggestion menu), no discovery dialog is opened for it any more,
    whatever happens afterwards: a later announcement of it fails at the
    registration, before the dialog. In particular a fork announced while
    the dialog was suppressed is never offered in a dialog. *)
Theorem registered_fork_not_prompted_again
    (forkId : string) (es : list Event) :
  forall s s',
    is_Some (suggestionCommands s !! forkId) ->
    run s es = Some s' ->
    promptsFor forkId (calls s') = promptsFor forkId (calls s).
Proof.
  induction es as [|e es IH]; cbn; intros s s' Hsome Hrun.
  - by injection Hrun as <-.
  - destruct (enabled s e); [|discriminate].
    rewrite (IH (step s e) s'); [by apply step_prompts_frozen| |done].
    destruct Hsome as [cmd Hcmd]. exists cmd.
    by apply step_suggestionCommands.
Qed.

Lemma registered_fork_not_prompted_again_witness :
  let s := step (step (createNew room0) SelectSuggesting) (announce "f2") in
  let es := [ForkResolved "f1"; announce "f2"; announce "f3";
             announce "f2"] in
  is_Some (suggestionCommands s !! "f2")
  /\ promptsFor "f2" (calls s) = 0
  /\ exists s',
       run s es = Some s'
       /\ promptsFor "f2" (calls s') = 0
       /\ promptsFor "f3" (calls s') = 1.
Proof.
  intros s es.
  assert (Hsome : is_Some (suggestionCommands s !! "f2"))
    by (by vm_compute; eauto).
  split; [exact Hsome|]. split; [by vm_compute|].
  destruct (run s es) as [s'|] eqn:Hrun; [|by vm_compute in Hrun].
  exists s'. split; [reflexivity|]. split.
  - rewrite (registered_fork_not_prompted_again "f2" es s s' Hsome Hrun).
    by vm_compute.
  - vm_compute in Hrun. injection Hrun as <-. by vm_compute.
Defined.

Lemma step_PromptInv (forkId : string) (s : Session) (e : Event) :
  PromptInv forkId s -> PromptInv forkId (step s e).
Proof.
  intros Hinv. pose proof (step_keeps_suggestions s e) as Hkeep.
  destruct e;
    try (destruct Hkeep as (_ & Hcmds & Hprompts); unfold PromptInv;
         rewrite Hcmds, Hprompts; exact Hinv).
  apply (onStateChanged_preserves (PromptInv forkId)); [|exact Hinv].
  intros newForkId t t' [Hle Hzero] Hnone Hnew. unfold PromptInv.
  rewrite (reg_commands _ _ _ Hnew), (reg_calls _ _ _ Hnew), promptsFor_app.
  destruct (decide (newForkId = forkId)) as [->|Hne].
  - rewrite lookup_insert_eq, (Hzero Hnone).
    split; [|discriminate].
    destruct (isForeign (myForkId t) forkId); cbn; [|lia].
    rewrite String.eqb_refl. lia.
  - rewrite lookup_insert_ne by done.
    assert (Hnew0 : promptsFor forkId
                      (if isForeign (myForkId t) newForkId
                       then [DialogNewSuggestion newForkId] else []) = 0).
    { destruct (isForeign (myForkId t) newForkId); cbn; [|done].
      apply String.eqb_neq in Hne. by rewrite Hne. }
    rewrite Hnew0. split; [lia|]. intros Hreg. specialize (Hzero Hreg). lia.
Qed.

(** X6: over the whole life of a document, the discovery dialog is
    opened at most once for each fork id, and only for a fork that is then
    in the suggestion menu. *)
Theorem discovery_dialog_at_most_once
    (model : SharedModel) (s : Session) (forkId : string) :
  Reachable model s ->
  promptsFor forkId (calls s) <= 1
  /\ (promptsFor forkId (calls s) = 1 ->
      forkId ∈ items (suggestionMenu s)).
Proof.
  intros Hs.
  assert (Hinv : PromptInv forkId s).
  { induction Hs as [|s e _ IH _]; [|by apply step_PromptInv].
    split; cbn; [lia|done]. }
  destruct Hinv as [Hle Hzero]. split; [exact Hle|].
  intros Hone.
  apply (Reachable_MenuInv model s Hs).
  destruct (suggestionCommands s !! forkId) as [cmd|] eqn:Hcmd; [by eauto|].
  specialize (Hzero eq_refl). lia.
Qed.

Lemma discovery_dialog_at_most_once_witness :
  let s := step (step (step (createNew room0) (announce "f1"))
                      (PromptAnswered "f1" "Discard"))
                (announce "f1") in
  Reachable room0 s
  /\ promptsFor "f1" (calls s) = 1
  /\ promptsFor "f1" (calls s) <= 1.
Proof.
  intros s.
  assert (Hs : Reachable room0 s).
  { repeat (apply Reachable_step; [|by vm_compute]). constructor. }
  split; [exact Hs|]. split; [by vm_compute|].
  exact (proj1 (discovery_dialog_at_most_once room0 s "f1" Hs)).
Defined.

(** X7: while [myForkId] is the placeholder ["pending"], a change
    notification opens no discovery dialog at all, not for the client's
    own fork and not for the forks of other clients either: the announced
    forks are only added to the suggestion menu. *)
Theorem no_dialog_while_pending (s : Session) (changes : NotebookChange) :
  myForkId s = "pending" ->
  let s' := step s (SharedModelChanged changes) in
  calls s' = calls s
  /\ openPrompts s' = openPrompts s
  /\ myForkId s' = "pending".
Proof.
  intros Hmine. unfold step, react.
  apply (onStateChanged_preserves
           (fun t => calls t = calls s /\ openPrompts t = openPrompts s
                     /\ myForkId t = "pending")); [|done].
  intros newForkId t t' (Hcalls & Hprompts & Hpending) _ Hreg.
  rewrite (reg_calls _ _ _ Hreg), (reg_openPrompts _ _ _ Hreg),
    (reg_myForkId _ _ _ Hreg), Hpending.
  cbn. by rewrite !app_nil_r.
Qed.

Lemma no_dialog_while_pending_witness :
  let s := step (createNew room0) SelectSuggesting in
  let s' := step s (SharedModelChanged
                      (mkNotebookChange
                         (Some [mkStateChange "fork_f1";
                                mkStateChange "fork_f2"]))) in
  myForkId s = "pending"
  /\ items (suggestionMenu s') = ["root"; "f1"; "f2"]
  /\ calls s' = calls s.
Proof.
  intros s s'. split; [by vm_compute|]. split; [by vm_compute|].
  apply (no_dialog_while_pending s). by vm_compute.
Defined.

(** ** A change notification as a whole *)

(** X8: a change notification whose fields do not start with [fork_],
    or whose [stateChange] is undefined, leaves the session exactly as it
    is and throws nothing. *)
Theorem unrelated_fields_ignored (s : Session) (entries : list StateChange) :
  Forall (fun value => startsWith (name value) forkPrefix = false) entries ->
  _onStateChanged (mkNotebookChange (Some entries)) s = Returned tt s
  /\ _onStateChanged (mkNotebookChange None) s = Returned tt s.
Proof.
  intros Hentries. split; [|reflexivity].
  unfold _onStateChanged. cbn [stateChange].
  induction Hentries as [|value entries Hvalue _ IH]; [reflexivity|].
  cbn [forEach]. unfold bind at 1. unfold onStateChange at 1.
  rewrite Hvalue. exact IH.
Qed.

Lemma unrelated_fields_ignored_witness :
  let s := createNew room0 in
  _onStateChanged
    (mkNotebookChange
       (Some [mkStateChange "fork"; mkStateChange "Fork_f1";
              mkStateChange "dirty"; mkStateChange ""])) s
  = Returned tt s.
Proof.
  intros s. apply (unrelated_fields_ignored s).
  repeat constructor.
Defined.

(** X9: one change notification that announces several forks, all
    different and none registered yet, registers every one of them: the
    suggestion menu gets their items in the order of the notification, and
    the discovery dialog is opened, in that order, for those that are
    foreign to [myForkId]. *)
Theorem fresh_batch_registered_in_order (ids : list string) :
  forall s,
    NoDup ids ->
    (forall forkId, forkId ∈ ids -> suggestionCommands s !! forkId = None) ->
    exists s',
      _onStateChanged
        (mkNotebookChange
           (Some (map (fun forkId => mkStateChange (forkPrefix +:+ forkId))
                      ids))) s
      = Returned tt s'
      /\ items (suggestionMenu s') = items (suggestionMenu s) ++ ids
      /\ calls s' =
           calls s ++ map DialogNewSuggestion
                          (List.filter (isForeign (myForkId s)) ids)
      /\ openPrompts s' =
           openPrompts s ++ List.filter (isForeign (myForkId s)) ids
      /\ (forall forkId,
            forkId ∈ ids ->
            suggestionCommands s' !! forkId = Some (CmdSuggestion forkId))
      /\ myForkId s' = myForkId s.
Proof.
  unfold _onStateChanged. cbn [stateChange].
  induction ids as [|forkId ids IH]; intros s Hnodup Hfresh.
  - exists s. cbn. rewrite !app_nil_r. repeat split.
    intros forkId Hin. inversion Hin.
  - apply NoDup_cons in Hnodup as [Hnotin Hnodup].
    cbn [map forEach]. unfold bind at 1.
    destruct (onStateChange_cases (mkStateChange (forkPrefix +:+ forkId)) s)
      as [[Hno _]|[(_ & Hsome & _)|(_ & _ & s1 & Hs1 & Hreg)]];
      cbn [name] in *; rewrite ?slice_forkPrefix in *.
    + by rewrite startsWith_forkPrefix in Hno.
    + rewrite (Hfresh forkId) in Hsome by left. by destruct Hsome.
    + rewrite Hs1.
      destruct (IH s1 Hnodup) as (s' & Hs' & Hitems & Hcalls & Hopen & Hcmds & Hmine).
      { intros id Hin. rewrite (reg_commands _ _ _ Hreg).
        rewrite lookup_insert_ne; [apply Hfresh; by right|].
        intros ->. done. }
      exists s'. split; [exact Hs'|].
      rewrite (reg_myForkId _ _ _ Hreg) in Hcalls, Hopen, Hmine.
      rewrite Hitems, Hcalls, Hopen, (reg_suggestionMenu _ _ _ Hreg),
        (reg_calls _ _ _ Hreg), (reg_openPrompts _ _ _ Hreg).
      cbn [items addItem List.filter].
      destruct (isForeign (myForkId s) forkId); cbn [map];
        rewrite <- ?app_assoc; cbn [app]; repeat split; try done.
      all: intros id Hin; apply elem_of_cons in Hin as [->|Hin];
        [|by apply Hcmds].
      all: pose proof (forEach_onStateChange_Announced
                         (map (fun forkId => mkStateChange (forkPrefix +:+ forkId))
                              ids) s1) as Hann.
      all: rewrite Hs' in Hann; cbn [stateOf] in Hann.
      all: apply (ann_commands _ _ Hann).
      all: rewrite (reg_commands _ _ _ Hreg); apply lookup_insert_eq.
Qed.

Lemma fresh_batch_registered_in_order_witness :
  let s := step (step (createNew room0) SelectSuggesting)
                (ForkResolved "f1") in
  exists s',
    _onStateChanged
      (mkNotebookChange
         (Some [mkStateChange "fork_f2"; mkStateChange "fork_f1";
                mkStateChange "fork_f3"])) s
    = Returned tt s'
    /\ items (suggestionMenu s') = ["root"; "f2"; "f1"; "f3"]
    /\ calls s' = calls s ++ [DialogNewSuggestion "f2";
                              DialogNewSuggestion "f3"].
Proof.
  intros s.
  destruct (fresh_batch_registered_in_order ["f2"; "f1"; "f3"] s)
    as (s' & Hs' & Hitems & Hcalls & _).
  - repeat (apply NoDup_cons; split;
            [intros Hin;
             repeat (apply elem_of_cons in Hin as [Hin|Hin]; [discriminate|]);
             inversion Hin|]).
    apply NoDup_nil. done.
  - intros forkId Hin.
    repeat (apply elem_of_cons in Hin as [->|Hin]; [by vm_compute|]).
    inversion Hin.
  - exists s'. split; [exact Hs'|]. split; [exact Hitems | exact Hcalls].
Defined.

(** ** [myForkId] and the fork request *)

Lemma run_no_fork_iff_empty (es : list Event) :
  forall s s',
    ForkInv s ->
    (forkCalls (calls s) = 0 -> myForkId s = "") ->
    (forall newForkId, ForkResolved newForkId ∈ es -> newForkId <> "") ->
    run s es = Some s' ->
    forkCalls (calls s') = 0 -> myForkId s' = "".
Proof.
  induction es as [|e es IH]; cbn; intros s s' Hinv Hzero Hids Hrun.
  - by injection Hrun as <-.
  - destruct (enabled s e) eqn:He; [|discriminate].
    apply (IH (step s e) s'); [| |by intros id Hin; apply Hids; right|done].
    { apply step_ForkInv; [done|]. intros id ->. apply Hids. by left. }
    destruct (step_calls s e) as (new & -> & Hnew & _).
    rewrite forkCalls_app, Hnew, step_myForkId.
    destruct Hinv as (Hpromise & _ & Hempty).
    destruct e; try (intros Hsum; apply Hzero; lia).
    + destruct (String.eqb (myForkId s) ""); [lia|].
      intros Hsum. apply Hzero. lia.
    + intros Hsum. cbn in He.
      destruct Hpromise as [Hp|[_ Hp]]; [by rewrite Hp in He|].
      assert (Hcalls : forkCalls (calls s) = 0) by lia.
      rewrite (Hzero Hcalls) in Hp. discriminate.
Qed.

(** X10: when the provider resolves [fork()] with non-empty ids,
    [myForkId] is empty exactly as long as no [fork()] call has been
    issued: it is non-empty from the first 'Suggesting' selection on, and
    nothing empties it again, neither 'Root' nor a rejected fork
    request. *)
Theorem myForkId_empty_iff_no_fork_call
    (model : SharedModel) (es : list Event) (s : Session) :
  run (createNew model) es = Some s ->
  (forall newForkId, ForkResolved newForkId ∈ es -> newForkId <> "") ->
  (myForkId s = "" <-> forkCalls (calls s) = 0).
Proof.
  intros Hrun Hids. split.
  - by apply (run_ForkInv es _ _ (createNew_ForkInv model) Hids Hrun).
  - by apply (run_no_fork_iff_empty es (createNew model) s
                (createNew_ForkInv model)).
Qed.

Lemma myForkId_empty_iff_no_fork_call_witness :
  let es := [SelectSuggesting; ForkRejected; SelectSuggestion "root";
             SelectEditing] in
  exists s,
    run (createNew room0) es = Some s
    /\ myForkId s = "pending"
    /\ forkCalls (calls s) <> 0.
Proof.
  intros es. destruct (run (createNew room0) es) as [s|] eqn:Hrun;
    [|by vm_compute in Hrun].
  exists s. split; [reflexivity|].
  assert (Hmine : myForkId s = "pending").
  { vm_compute in Hrun. injection Hrun as <-. by vm_compute. }
  split; [exact Hmine|].
  intros Hzero.
  apply (myForkId_empty_iff_no_fork_call room0 es s Hrun) in Hzero.
  - rewrite Hmine in Hzero. discriminate.
  - intros newForkId Hin.
    repeat (apply elem_of_cons in Hin as [Hin|Hin]; [discriminate|]).
    inversion Hin.
Defined.

(** X11: in every session a document can be in, at most one [fork()]
    promise is pending, and while it is pending [myForkId] is the
    placeholder ["pending"]; so a fork promise never resolves over a fork
    id that [myForkId] already holds. *)
Theorem one_pending_fork_promise (model : SharedModel) (s : Session) :
  Reachable model s ->
  forkPromises s <= 1
  /\ (forkPromises s <> 0 -> myForkId s = "pending")
  /\ (myForkId s <> "pending" ->
      forall newForkId, enabled s (ForkResolved newForkId) = false).
Proof.
  intros Hs.
  destruct (Reachable_PromiseInv model s Hs) as [Hzero|[Hone Hpending]].
  - rewrite Hzero. split; [lia|]. split; [done|].
    intros _ newForkId. cbn. by rewrite Hzero.
  - rewrite Hone. split; [lia|]. split; [done|]. by intros [].
Qed.

Lemma one_pending_fork_promise_witness :
  let s := step (step (createNew room0) SelectSuggesting) SelectSuggesting in
  Reachable room0 s
  /\ forkPromises s = 1
  /\ myForkId s = "pending".
Proof.
  intros s.
  assert (Hs : Reachable room0 s).
  { repeat (apply Reachable_step; [|by vm_compute]). constructor. }
  split; [exact Hs|]. split; [by vm_compute|].
  apply (one_pending_fork_promise room0 s Hs). by vm_compute.
Defined.

(** ** Selecting a suggestion again *)

(** X12: selecting the same item of the suggestion menu a second time
    issues the calls of the first selection once more and changes nothing
    else: the labels, the review menu (which does not accumulate 'merge'
    and 'discard' items), the connection and [myForkId] are those the
    first selection left. *)
Theorem reselecting_suggestion_is_idempotent
    (s : Session) (command : string) :
  let s1 := step s (SelectSuggestion command) in
  let s2 := step s1 (SelectSuggestion command) in
  myForkId s2 = myForkId s1
  /\ editingMenu s2 = editingMenu s1
  /\ suggestionMenu s2 = suggestionMenu s1
  /\ reviewMenu s2 = reviewMenu s1
  /\ suggestionCommands s2 = suggestionCommands s1
  /\ sharedModel s2 = sharedModel s1
  /\ forkPromises s2 = forkPromises s1
  /\ openPrompts s2 = openPrompts s1
  /\ exists again,
       calls s1 = calls s ++ again /\ calls s2 = calls s1 ++ again.
Proof.
  unfold step, react.
  destruct (suggestionCommands s !! command) as [[|newForkId]|] eqn:Hcmd.
  - unfold_exec. rewrite Hcmd. cbn. repeat split.
    exists [ConnectFork (rootRoomId (sharedModel s))]. done.
  - unfold_exec.
    destruct (String.eqb (myForkId s) newForkId) eqn:Hmine; cbn;
      rewrite Hcmd; cbn; rewrite Hmine; cbn; repeat split.
    all: exists [ConnectFork newForkId; DialogSuggestion].
    all: by rewrite <- !app_assoc.
  - cbn. rewrite Hcmd. cbn. repeat split. exists []. by rewrite app_nil_r.
Qed.

(** ** Answering the discovery dialog *)

(** X13: the answer to a 'New suggestion' dialog is compared with the
    label 'Open'. With that label the client is connected to the fork, the
    suggestion menu is labelled with it, the editing menu reads 'Editing'
    and the review menu offers 'merge' then 'discard'; with any other
    label (the 'Discard' button) nothing happens but the dialog being
    closed: no call is issued and the fork stays in the suggestion menu.
    Neither answer touches [myForkId]. *)
Theorem discovery_dialog_answer (s : Session) (forkId label : string) :
  let s' := step s (PromptAnswered forkId label) in
  myForkId s' = myForkId s
  /\ suggestionCommands s' = suggestionCommands s
  /\ items (suggestionMenu s') = items (suggestionMenu s)
  /\ openPrompts s' = closePrompt forkId (openPrompts s)
  /\ if String.eqb label "Open" then
       calls s' = calls s ++ [ConnectFork forkId]
       /\ currentRoomId (sharedModel s') = forkId
       /\ title_label (suggestionMenu s') = forkId
       /\ title_label (editingMenu s') = "Editing"
       /\ items (reviewMenu s') = ["merge"; "discard"]
     else
       calls s' = calls s
       /\ sharedModel s' = sharedModel s
       /\ editingMenu s' = editingMenu s
       /\ suggestionMenu s' = suggestionMenu s
       /\ reviewMenu s' = reviewMenu s.
Proof.
  unfold_exec. destruct (String.eqb label "Open"); cbn; repeat split.
Qed.

(** ** The working document in the global awareness *)

(** X14: the handler of [state.changed] publishes the current widget
    id in the awareness field 'current' exactly when the restored layout
    has one and it starts with 'editor' or 'notebook', and it publishes
    that id unchanged; in every other case (no layout data, no main area,
    no or an empty current widget, another kind of widget) the field is
    set to null. *)
Theorem currentField_published
    (data : gmap string LayoutRestorer.Data) (c : string) :
  currentField data = Some c <->
  (exists d m,
      data !! "layout-restorer:data" = Some d
      /\ LayoutRestorer.main d = Some m
      /\ LayoutRestorer.current m = Some c)
  /\ (startsWith c "editor" || startsWith c "notebook") = true.
Proof.
  unfold currentField, layoutCurrent. split.
  - destruct (data !! "layout-restorer:data") as [d|]; [|discriminate].
    destruct (LayoutRestorer.main d) as [m|] eqn:Hmain; [|discriminate].
    destruct (LayoutRestorer.current m) as [c'|] eqn:Hcurrent;
      [|discriminate].
    destruct (String.eqb c' "") eqn:Hempty; [discriminate|].
    destruct (startsWith c' "editor" || startsWith c' "notebook") eqn:Hkind;
      [|discriminate].
    intros [= <-]. split; [|exact Hkind]. by exists d, m.
  - intros [(d & m & -> & -> & ->) Hkind].
    destruct (String.eqb c "") eqn:Hempty.
    + apply String.eqb_eq in Hempty as ->. discriminate.
    + by rewrite Hkind.
Qed.
